(** * libdnf5 Logger and the microdnf [install] command

    A shallow embedding of

    - [include/libdnf5/logger/logger.hpp]   (class [libdnf5::Logger]) and
    - [microdnf/commands/install/install.cpp] (class [microdnf::CmdInstall]).

    C++ member functions become computations in a small state monad whose
    result records how the call ended: it returned, a C++ exception left
    it, or it ran into undefined behaviour.  Calls into code that is not
    part of these two files are recorded in an event list, so that the
    order and the number of those calls can be stated. *)

From Stdlib Require Import ZArith NArith List String Ascii Bool Lia.
From stdpp Require Import base list.
Import ListNotations.

Local Open Scope string_scope.
Local Open Scope list_scope.

(** ** How a call ends *)

(** Exceptions that can leave the modelled functions. *)
Inductive Exn : Type :=
| LoggerErrorLevelNotSet            (* named in the comment of [Logger::get_level] *)
| FormatError (what : string)       (* raised by the template expansion *)
| RuntimeError (what : string).     (* a failure raised by a collaborator *)

Inductive Outcome (A : Type) : Type :=
| Returned (a : A)      (* the call returned [a] *)
| Raised (e : Exn)      (* an exception propagates to the caller *)
| Undefined.            (* undefined behaviour: a null pointer was dereferenced *)

Arguments Returned {A} a.
Arguments Raised {A} e.
Arguments Undefined {A}.

(** A computation over a state [St]. *)
Definition M (St A : Type) : Type := St -> St * Outcome A.

Definition ret {St A} (a : A) : M St A := fun s => (s, Returned a).

Definition raise {St A} (e : Exn) : M St A := fun s => (s, Raised e).

Definition undefined {St A} : M St A := fun s => (s, Undefined).

Definition bind {St A B} (c : M St A) (k : A -> M St B) : M St B :=
  fun s =>
    match c s with
    | (s', Returned a) => k a s'
    | (s', Raised e) => (s', Raised e)
    | (s', Undefined) => (s', Undefined)
    end.

Definition gets {St A} (f : St -> A) : M St A := fun s => (s, Returned (f s)).

Definition modify {St} (f : St -> St) : M St unit := fun s => (f s, Returned tt).

Declare Scope cxx_scope.
Delimit Scope cxx_scope with cxx.
Notation "x <- c1 ;; c2" := (bind c1 (fun x => c2))
  (at level 100, c1 at next level, right associativity) : cxx_scope.
Notation "c1 ;; c2" := (bind c1 (fun _ => c2))
  (at level 100, right associativity) : cxx_scope.

Definition final_state {St A} (r : St * Outcome A) : St := fst r.
Definition outcome {St A} (r : St * Outcome A) : Outcome A := snd r.

(** [std::chrono::duration_cast<std::chrono::seconds>(d).count()] for a
    duration [d] of [ticks] clock ticks: the cast truncates toward zero. *)
Definition duration_cast_seconds (ticks_per_second ticks : Z) : Z :=
  Z.quot ticks ticks_per_second.

(** ** logger.hpp *)

Module Logger.

(** [enum class Level : unsigned int]. *)
Inductive Level : Type :=
| CRITICAL | ERROR | WARNING | NOTICE | INFO | DEBUG | TRACE.

#[global] Instance Level_eq_dec : EqDecision Level.
Proof. solve_decision. Defined.

(** [static_cast<unsigned int>(level)]. *)
Definition level_ord (level : Level) : N :=
  match level with
  | CRITICAL => 0
  | ERROR => 1
  | WARNING => 2
  | NOTICE => 3
  | INFO => 4
  | DEBUG => 5
  | TRACE => 6
  end%N.

Definition LEVEL_C_STR : list string :=
  ["CRITICAL"; "ERROR"; "WARNING"; "NOTICE"; "INFO"; "DEBUG"; "TRACE"].

(** [level_to_cstr], on the unsigned value of its argument. *)
Definition level_to_cstr_u (ilevel : N) : string :=
  if (N.of_nat (length LEVEL_C_STR) <=? ilevel)%N then "UNDEFINED"
  else nth (N.to_nat ilevel) LEVEL_C_STR "UNDEFINED".

Definition level_to_cstr (level : Level) : string :=
  level_to_cstr_u (level_ord level).

(** What the surroundings of a logger provide: the template expansion of
    [libdnf5/utils/format.hpp], the system clock and the process id.  None
    of them is defined in logger.hpp; they are parameters of the model.
    [sformat] can raise; the [n]-th reading of the clock is
    [system_clock_now n]. *)
Class Runtime : Type := {
  sformat : string -> list string -> Exn + string;
  system_clock_now : nat -> Z;
  getpid : Z
}.

(** The pure virtual [Logger::write].  It is declared [noexcept]: an
    implementation is a total update of the state of the derived class. *)
Class Sink (S : Type) : Type := {
  write : Z -> Z -> Level -> string -> S -> S
}.

(** Calls that leave logger.hpp, in the order in which they happen. *)
Inductive Event : Type :=
| EvFormat (format : string) (args : list string)
| EvWrite (time pid : Z) (level : Level) (message : string).

(** A logger object: the private member [level], the state of the derived
    class, and the bookkeeping of the model (events, clock readings). *)
Record LoggerState (S : Type) : Type := mkLogger {
  level : option Level;
  sink : S;
  events : list Event;
  clock_reads : nat
}.

Arguments mkLogger {S} _ _ _ _.
Arguments level {S} _.
Arguments sink {S} _.
Arguments events {S} _.
Arguments clock_reads {S} _.

(** [Logger() = default]: the threshold starts as [std::nullopt]. *)
Definition new_logger {S} (s : S) : LoggerState S := mkLogger None s [] 0.

Section Methods.
Context {RT : Runtime} {S : Type} {SK : Sink S}.

Local Open Scope cxx_scope.

Definition emit (e : Event) : M (LoggerState S) unit :=
  modify (fun lg => mkLogger (level lg) (sink lg) (events lg ++ [e]) (clock_reads lg)).

(** [void set_level(Level level) { this->level = level; }] *)
Definition set_level (l : Level) : M (LoggerState S) unit :=
  modify (fun lg => mkLogger (Some l) (sink lg) (events lg) (clock_reads lg)).

(** Modelled from the spec: the body of [Logger::get_level] is missing
    (only its declaration is in logger.hpp).  It returns the configured
    threshold and fails with a level-not-configured error when none was
    ever set; the comment of the declaration names the exception,
    [LoggerErrorLevelNotSet]. *)
Definition get_level : M (LoggerState S) Level :=
  fun lg =>
    match level lg with
    | Some l => (lg, Returned l)
    | None => (lg, Raised LoggerErrorLevelNotSet)
    end.

(** [bool is_level_set() { return level.has_value(); }] *)
Definition is_level_set : M (LoggerState S) bool :=
  gets (fun lg => match level lg with Some _ => true | None => false end).

(** Modelled from the spec: the body of [Logger::is_enabled_for] is
    missing.  It is true iff a threshold is configured and [msg_level] is
    at least as severe as the threshold, a lower enumerator being more
    severe; false if no threshold is configured. *)
Definition is_enabled_for (msg_level : Level) : M (LoggerState S) bool :=
  gets (fun lg =>
          match level lg with
          | Some threshold => (level_ord msg_level <=? level_ord threshold)%N
          | None => false
          end).

(** A call of [libdnf5::utils::sformat]. *)
Definition call_sformat (format : string) (args : list string)
  : M (LoggerState S) string :=
  emit (EvFormat format args) ;;
  match sformat format args with
  | inr message => ret message
  | inl e => raise e
  end.

(** [std::chrono::system_clock::now()] *)
Definition now : M (LoggerState S) Z :=
  fun lg =>
    (mkLogger (level lg) (sink lg) (events lg) (Datatypes.S (clock_reads lg)),
     Returned (system_clock_now (clock_reads lg))).

(** A call of the virtual [write]. *)
Definition call_write (time pid : Z) (l : Level) (message : string)
  : M (LoggerState S) unit :=
  modify (fun lg =>
            mkLogger (level lg) (write time pid l message (sink lg))
                     (events lg ++ [EvWrite time pid l message])
                     (clock_reads lg)).

(** Modelled from the spec: the body of [Logger::log_line] is missing.
    It takes a pre-formatted string, stamps it with the current
    wall-clock time and the calling process identifier, and forwards it
    to the [write] sink.  It is declared [noexcept]. *)
Definition log_line (l : Level) (message : string) : M (LoggerState S) unit :=
  time <- now ;;
  call_write time getpid l message.

(** [log_line(level, libdnf5::utils::sformat(format, args...));]
    The argument of [log_line] is evaluated before [log_line] is called. *)
Definition log (l : Level) (format : string) (args : list string)
  : M (LoggerState S) unit :=
  message <- call_sformat format args ;;
  log_line l message.

Definition critical (format : string) (args : list string) := log CRITICAL format args.
Definition error (format : string) (args : list string) := log ERROR format args.
Definition warning (format : string) (args : list string) := log WARNING format args.
Definition notice (format : string) (args : list string) := log NOTICE format args.
Definition info (format : string) (args : list string) := log INFO format args.
Definition debug (format : string) (args : list string) := log DEBUG format args.
Definition trace (format : string) (args : list string) := log TRACE format args.

(** The convenience call of a level. *)
Definition convenience (l : Level) : string -> list string -> M (LoggerState S) unit :=
  match l with
  | CRITICAL => critical
  | ERROR => error
  | WARNING => warning
  | NOTICE => notice
  | INFO => info
  | DEBUG => debug
  | TRACE => trace
  end.

End Methods.


Definition is_write (e : Event) : bool :=
  match e with EvWrite _ _ _ _ => true | EvFormat _ _ => false end.


Definition write_calls (evs : list Event) : list Event := List.filter is_write evs.

(** *** Sequences of calls on one logger *)

(** The public member functions, as calls with their arguments. *)
Inductive Call : Type :=
| CallSetLevel (l : Level)
| CallGetLevel
| CallIsLevelSet
| CallIsEnabledFor (msg_level : Level)
| CallLog (l : Level) (format : string) (args : list string)
| CallLogLine (l : Level) (message : string).

Definition is_set_level (c : Call) : bool :=
  match c with
  | CallSetLevel _ => true
  | _ => false
  end.

Section Calls.
Context {RT : Runtime} {S : Type} {SK : Sink S}.

(** The logger after one call; the caller goes on whatever the outcome. *)
Definition do_call (lg : LoggerState S) (c : Call) : LoggerState S :=
  match c with
  | CallSetLevel l => final_state (set_level l lg)
  | CallGetLevel => final_state (get_level lg)
  | CallIsLevelSet => final_state (is_level_set lg)
  | CallIsEnabledFor l => final_state (is_enabled_for l lg)
  | CallLog l format args => final_state (log l format args lg)
  | CallLogLine l message => final_state (log_line l message lg)
  end.

Definition do_calls (cs : list Call) (lg : LoggerState S) : LoggerState S :=
  fold_left do_call cs lg.

End Calls.

(** The calls of a sequence that are not [set_level]. *)
Definition without_set_level (cs : list Call) : list Call :=
  List.filter (fun c => negb (is_set_level c)) cs.

(** *** Instances used to run the model *)

(** Modelled from the spec: [libdnf5::utils::sformat] (format.hpp) is
    missing; the spec only says that a format template is expanded with an
    argument list and that the expansion can fail.  This instance replaces
    each [{}] of the template by the next argument and fails when the
    arguments run out. *)
Fixpoint brace_sformat (format : string) (args : list string) : Exn + string :=
  match format with
  | EmptyString => inr EmptyString
  | String "{"%char (String "}"%char rest) =>
      match args with
      | a :: args' =>
          match brace_sformat rest args' with
          | inr s => inr (String.append a s)
          | inl e => inl e
          end
      | [] => inl (FormatError "argument not found")
      end
  | String c rest =>
      match brace_sformat rest args with
      | inr s => inr (String c s)
      | inl e => inl e
      end
  end.

(** A clock that starts at [t0] ticks and advances by one tick per reading. *)
Definition test_runtime (t0 pid : Z) : Runtime :=
  {| sformat := brace_sformat;
     system_clock_now := fun n => (t0 + Z.of_nat n)%Z;
     getpid := pid |}.

(** A sink that keeps every record it is given, oldest first. *)
Definition memory_sink : Sink (list (Z * Z * Level * string)) :=
  {| write := fun time pid l message buf => buf ++ [(time, pid, l, message)] |}.

Definition rt : Runtime := test_runtime 1000 42.

(** A recording logger with threshold [WARNING]. *)
Definition warning_logger : LoggerState (list (Z * Z * Level * string)) :=
  final_state (set_level WARNING (new_logger [])).

End Logger.

(** ** install.cpp *)

Module Install.

(** *** Types of libdnf that install.cpp uses *)

(** [libdnf::OptionString] (conf/option_string.hpp): an option holding a
    string value. *)
Record OptionString : Type := mkOptionString { get_value : string }.

(** Objects of the class hierarchy below [libdnf::Option].  Only
    [OptionString] matters here; the other two stand for every other
    derived class. *)
Inductive OptionObj : Type :=
| AnOptionString (o : OptionString)
| AnOptionBool (b : bool)
| AnOptionNumber (n : Z).

(** [std::unique_ptr<libdnf::Option>]: [None] is the null pointer. *)
Definition OptionPtr : Type := option OptionObj.

(** [dynamic_cast<libdnf::OptionString *>(pattern.get())]: the null
    pointer unless the object is an [OptionString]. *)
Definition dynamic_cast_OptionString (pattern : OptionPtr) : option OptionString :=
  match pattern with
  | Some (AnOptionString o) => Some o
  | _ => None
  end.

(** [libdnf::GoalProblem] (base/goal.hpp): no problem, or a non-empty set
    of problem flags. *)
Inductive GoalProblem : Type :=
| NO_PROBLEM
| PROBLEMS (flags : positive).

#[global] Instance GoalProblem_eq_dec : EqDecision GoalProblem.
Proof. solve_decision. Defined.

(** [libdnf::rpm::SolvSack::LoadRepoFlags]; the flags of a load are
    combined with [|]. *)
Inductive LoadRepoFlags : Type :=
| USE_FILELISTS | USE_PRESTO | USE_UPDATEINFO | USE_OTHER.

(** [libdnf::transaction::TransactionState]. *)
Inductive TransactionState : Type :=
| UNKNOWN | DONE | ERROR.

(** A [libdnf::Goal]: the install requests added so far. *)
Definition Goal : Type := list string.

(** A record of the transaction history.  A time or a state that was never
    set is [None]. *)
Record DbTransaction : Type := mkDbTransaction {
  dt_start : option Z;
  dt_end : option Z;
  started : bool;
  state : option TransactionState
}.

Definition new_record : DbTransaction := mkDbTransaction None None false None.

(** *** The collaborators *)

(** Calls that leave install.cpp, in the order in which they happen.
    A handle [h] of a history record is its position in the history. *)
Inductive Event : Type :=
| EvCreateSystemRepo (build_cache : bool)
| EvLoadRpmRepos (enabled : bool) (flags : list LoadRepoFlags)   (* repositories of ifilter_enabled(enabled) *)
| EvCout (line : string)                       (* std::cout << line << std::endl *)
| EvAddRpmInstall (spec : string)
| EvResolve (allow_erasing : bool) (result : GoalProblem)
| EvPrintTransactionTable (result : bool)
| EvUserConfirm (result : bool)
| EvDownloadPackages
| EvNewRpmTransaction
| EvNewDbTransaction (h : nat)
| EvFillTransactions (h : nat)
| EvSetDtStart (h : nat) (seconds : Z)
| EvStart (h : nat)
| EvRunTransaction
| EvSetDtEnd (h : nat) (seconds : Z)
| EvFinish (h : nat) (s : TransactionState).

(** Modelled from the spec: the functions behind [Context], [libdnf::Goal],
    the download, the execution, the rendering and the clock are missing;
    they are the collaborators of the spec's external interfaces.  The
    resolution engine answers a goal with its outcome and its problem
    text; the preview and the confirmation answer with a boolean; the
    repository load, the download and the execution succeed or fail.
    install.cpp calls these three as statements and inspects no result, so
    a failure reaches it only as an exception: [None] says that the call
    returns, [Some e] that it raises [e]. *)
Record Ctx : Type := mkCtx {
  load_rpm_repos_result : option Exn;
  goal_resolve_result : Goal -> bool -> GoalProblem;
  goal_formated_all_problems : Goal -> string;
  print_transaction_table_result : Goal -> bool;
  userconfirm_result : bool;
  download_packages_result : option Exn;
  run_transaction_result : option Exn;
  system_clock_now : nat -> Z;           (* the n-th reading, in clock ticks *)
  ticks_per_second : positive            (* std::chrono::system_clock::period *)
}.

(** The state a run works on. *)
Record State : Type := mkState {
  events : list Event;
  history : list DbTransaction;
  clock_reads : nat
}.

(** The state before a run, with the records [h0] already in the history. *)
Definition start_state (h0 : list DbTransaction) : State := mkState [] h0 0.

Local Open Scope cxx_scope.

Definition emit (e : Event) : M State unit :=
  modify (fun st => mkState (events st ++ [e]) (history st) (clock_reads st)).

(** A call that returns or raises, as the collaborator decides. *)
Definition returns_or_raises (result : option Exn) : M State unit :=
  match result with
  | None => ret tt
  | Some e => raise e
  end.

Definition create_system_repo (build_cache : bool) : M State unit :=
  emit (EvCreateSystemRepo build_cache).

Definition load_rpm_repos (ctx : Ctx) (enabled : bool) (flags : list LoadRepoFlags)
  : M State unit :=
  emit (EvLoadRpmRepos enabled flags) ;;
  returns_or_raises (load_rpm_repos_result ctx).

Definition cout_endl (line : string) : M State unit := emit (EvCout line).

Definition goal_add_rpm_install (goal : Goal) (spec : string) : M State Goal :=
  emit (EvAddRpmInstall spec) ;;
  ret (goal ++ [spec]).

Definition goal_resolve (ctx : Ctx) (goal : Goal) (allow_erasing : bool)
  : M State GoalProblem :=
  let result := goal_resolve_result ctx goal allow_erasing in
  emit (EvResolve allow_erasing result) ;;
  ret result.

Definition print_transaction_table (ctx : Ctx) (goal : Goal) : M State bool :=
  let result := print_transaction_table_result ctx goal in
  emit (EvPrintTransactionTable result) ;;
  ret result.

Definition userconfirm (ctx : Ctx) : M State bool :=
  emit (EvUserConfirm (userconfirm_result ctx)) ;;
  ret (userconfirm_result ctx).

Definition download_packages (ctx : Ctx) (goal : Goal) : M State unit :=
  emit EvDownloadPackages ;;
  returns_or_raises (download_packages_result ctx).

Definition new_rpm_transaction : M State unit := emit EvNewRpmTransaction.

(** Modelled from the spec: the history store is missing.  It creates a
    record and hands out a handle; through the handle the start time is
    set, the record is marked started, the end time is set, and the
    record is finished with a state.  [new_db_transaction(ctx)] puts the
    new record at the end of the history. *)
Definition new_db_transaction : M State nat :=
  fun st =>
    let h := length (history st) in
    (mkState (events st ++ [EvNewDbTransaction h]) (history st ++ [new_record])
             (clock_reads st),
     Returned h).

Definition fill_transactions (goal : Goal) (h : nat) : M State unit :=
  emit (EvFillTransactions h).

(** A member function of the record behind the handle [h]. *)
Definition on_record (h : nat) (e : Event) (f : DbTransaction -> DbTransaction)
  : M State unit :=
  modify (fun st => mkState (events st ++ [e]) (alter f h (history st)) (clock_reads st)).

Definition set_dt_start (h : nat) (seconds : Z) : M State unit :=
  on_record h (EvSetDtStart h seconds)
    (fun r => mkDbTransaction (Some seconds) (dt_end r) (started r) (state r)).

Definition start (h : nat) : M State unit :=
  on_record h (EvStart h)
    (fun r => mkDbTransaction (dt_start r) (dt_end r) true (state r)).

Definition set_dt_end (h : nat) (seconds : Z) : M State unit :=
  on_record h (EvSetDtEnd h seconds)
    (fun r => mkDbTransaction (dt_start r) (Some seconds) (started r) (state r)).

Definition finish (h : nat) (s : TransactionState) : M State unit :=
  on_record h (EvFinish h s)
    (fun r => mkDbTransaction (dt_start r) (dt_end r) (started r) (Some s)).

Definition run_transaction (ctx : Ctx) : M State unit :=
  emit EvRunTransaction ;;
  returns_or_raises (run_transaction_result ctx).

(** [std::chrono::system_clock::now().time_since_epoch()], in ticks. *)
Definition now (ctx : Ctx) : M State Z :=
  fun st =>
    (mkState (events st) (history st) (S (clock_reads st)),
     Returned (system_clock_now ctx (clock_reads st))).

Definition seconds_of (ctx : Ctx) (time : Z) : Z :=
  duration_cast_seconds (Z.pos (ticks_per_second ctx)) time.

(** *** CmdInstall::run *)

(** The loop over [*patterns_to_install_options]:
    [auto option = dynamic_cast<libdnf::OptionString *>(pattern.get());]
    [goal.add_rpm_install(option->get_value());]
    The result of the cast is dereferenced as it is. *)
Fixpoint add_patterns (patterns : list OptionPtr) (goal : Goal) : M State Goal :=
  match patterns with
  | [] => ret goal
  | pattern :: rest =>
      match dynamic_cast_OptionString pattern with
      | None => undefined
      | Some option =>
          goal' <- goal_add_rpm_install goal (get_value option) ;;
          add_patterns rest goal'
      end
  end.

Definition run (ctx : Ctx) (patterns_to_install_options : list OptionPtr) : M State unit :=
  create_system_repo false ;;
  load_rpm_repos ctx true [USE_FILELISTS; USE_PRESTO; USE_UPDATEINFO; USE_OTHER] ;;
  cout_endl "" ;;
  goal <- add_patterns patterns_to_install_options [] ;;
  problem <- goal_resolve ctx goal false ;;
  if negb (bool_decide (problem = NO_PROBLEM)) then
    cout_endl (goal_formated_all_problems ctx goal)
  else
    shown <- print_transaction_table ctx goal ;;
    if negb shown then ret tt
    else
      yes <- userconfirm ctx ;;
      if negb yes then cout_endl "Operation aborted."
      else
        download_packages ctx goal ;;
        cout_endl "" ;;
        new_rpm_transaction ;;
        db_transaction <- new_db_transaction ;;
        fill_transactions goal db_transaction ;;
        time <- now ctx ;;
        set_dt_start db_transaction (seconds_of ctx time) ;;
        start db_transaction ;;
        run_transaction ctx ;;
        time' <- now ctx ;;
        set_dt_end db_transaction (seconds_of ctx time') ;;
        finish db_transaction DONE.

(** *** CmdInstall::set_argument_parser *)

(** [ArgumentParser::PositionalArg::UNLIMITED], or a fixed number of values. *)
Inductive NVals : Type :=
| UNLIMITED
| EXACTLY (n : nat).

(** What [add_new_positional_arg] is given. *)
Record PositionalArg : Type := mkPositionalArg {
  arg_name : string;
  nvals : NVals;
  init_value : OptionObj;
  short_description : string
}.

(** [new libdnf::OptionString(nullptr)]: a string option without a default. *)
Definition OptionString_nullptr : OptionObj := AnOptionString (mkOptionString "").

(** A command of the argument parser, with what is set on it. *)
Record Command : Type := mkCommand {
  cmd_name : string;
  cmd_short_description : string;
  cmd_description : string;
  named_args_help_header : string;
  positional_args_help_header : string;
  positional_args : list PositionalArg
}.

(** The positional argument [keys]: any number of values, each starting
    from the initial value [OptionString(nullptr)]. *)
Definition keys : PositionalArg :=
  mkPositionalArg "keys_to_match" UNLIMITED OptionString_nullptr "List of keys to match".

(** The command that [set_argument_parser] registers below the root
    command.  (Its parse hook selects the command and is not modelled.) *)
Definition set_argument_parser : Command :=
  mkCommand "install" "install a package or packages on your system" ""
            "Optional arguments:" "Positional arguments:" [keys].

(** [Option::clone] keeps the class of the object. *)
Definition clone (o : OptionObj) : OptionObj := o.

(** [Option::set] from the text of a command-line value.  An
    [OptionString] takes the text; for the other classes only the class of
    the result matters here. *)
Definition set_from_string (o : OptionObj) (text : string) : OptionObj :=
  match o with
  | AnOptionString _ => AnOptionString (mkOptionString text)
  | AnOptionBool b => AnOptionBool b
  | AnOptionNumber n => AnOptionNumber n
  end.

(** Modelled from the spec: the [ArgumentParser] is missing.  The pattern
    collector gathers the positional values of the command line into an
    ordered list; each element is created from the initial value of the
    positional argument and set to the text of its command-line value. *)
Definition parse_positional (arg : PositionalArg) (argv : list string) : list OptionPtr :=
  let taken :=
    match nvals arg with
    | UNLIMITED => argv
    | EXACTLY n => firstn n argv
    end in
  map (fun text => Some (set_from_string (clone (init_value arg)) text)) taken.

(** [*patterns_to_install_options] after the command line [argv] of the
    command was parsed. *)
Definition collected_patterns (cmd : Command) (argv : list string) : list OptionPtr :=
  match positional_args cmd with
  | arg :: _ => parse_positional arg argv
  | [] => []
  end.

(** *** Observations *)

Definition is_option_string (pattern : OptionPtr) : bool :=
  match dynamic_cast_OptionString pattern with
  | Some _ => true
  | None => false
  end.

(** The values of the longest prefix of string options. *)
Fixpoint leading_values (patterns : list OptionPtr) : list string :=
  match patterns with
  | [] => []
  | pattern :: rest =>
      match dynamic_cast_OptionString pattern with
      | Some o => get_value o :: leading_values rest
      | None => []
      end
  end.

Definition is_finish (h : nat) (e : Event) : bool :=
  match e with
  | EvFinish h' _ => Nat.eqb h h'
  | _ => false
  end.

(** How often the finish state of the record [h] was set. *)
Definition finish_calls (h : nat) (evs : list Event) : nat :=
  length (List.filter (is_finish h) evs).

Definition is_download (e : Event) : bool :=
  match e with
  | EvDownloadPackages => true
  | _ => false
  end.

Definition download_calls (evs : list Event) : nat :=
  length (List.filter is_download evs).

(** The events of a run up to the end of the goal construction. *)
Definition built_events (goal : Goal) : list Event :=
  [EvCreateSystemRepo false;
   EvLoadRpmRepos true [USE_FILELISTS; USE_PRESTO; USE_UPDATEINFO; USE_OTHER];
   EvCout ""] ++ map EvAddRpmInstall goal.

Definition record_created (evs : list Event) : Prop :=
  exists h, In (EvNewDbTransaction h) evs.

(** *** Instances used to run the model *)

(** An engine that knows one package, [foo]. *)
Definition test_resolve (goal : Goal) (allow_erasing : bool) : GoalProblem :=
  if forallb (String.eqb "foo") goal then NO_PROBLEM else PROBLEMS 1.

Definition test_ctx (confirm : bool) (download execution : option Exn) : Ctx :=
  mkCtx None test_resolve (fun _ => "No match for argument")
        (fun goal => negb (Nat.eqb (length goal) 0)) confirm download execution
        (fun n => (1700000000000000000 + 2500000000 * Z.of_nat n)%Z) 1000000000.

Definition string_pattern (text : string) : OptionPtr :=
  Some (AnOptionString (mkOptionString text)).

(** A run of [install foo] / [install nonexistent] on an empty history. *)
Definition install_foo (ctx : Ctx) : State * Outcome unit :=
  run ctx [string_pattern "foo"] (start_state []).

Definition install_nonexistent (ctx : Ctx) : State * Outcome unit :=
  run ctx [string_pattern "nonexistent"] (start_state []).

Definition transaction_failed : Exn := RuntimeError "transaction failed".

Definition download_failed : Exn := RuntimeError "download failed".

Definition load_failed : Exn := RuntimeError "repository load failed".

(** Collaborators whose repository load fails. *)
Definition failing_load_ctx : Ctx :=
  mkCtx (Some load_failed) test_resolve (fun _ => "No match for argument")
        (fun goal => negb (Nat.eqb (length goal) 0)) true None None
        (fun n => (1700000000000000000 + 2500000000 * Z.of_nat n)%Z) 1000000000.

End Install.

(** * Properties of the logger *)

Section LoggerProperties.
Import Logger.
Context {RT : Runtime} {S : Type} {SK : Sink S}.

Implicit Types (lg : LoggerState S) (l : Level).

(** Every enumerator has its name; a value past [TRACE] has none. *)
Lemma level_to_cstr_names l :
  nth_error LEVEL_C_STR (N.to_nat (level_ord l)) = Some (level_to_cstr l)
  /\ level_to_cstr l <> "UNDEFINED"
  /\ level_to_cstr_u (N.succ (level_ord TRACE)) = "UNDEFINED".
Proof. destruct l; repeat split; discriminate. Qed.

Lemma level_do_call lg (c : Call) :
  level (do_call lg c) =
  match c with
  | CallSetLevel l => Some l
  | _ => level lg
  end.
Proof.
  destruct c; simpl; try reflexivity.
  - unfold get_level. destruct (level lg) eqn:E; simpl; rewrite E; reflexivity.
  - unfold log, call_sformat, bind; simpl.
    destruct (sformat format args); reflexivity.
Qed.

Lemma level_without_set_level (cs : list Call) lg :
  level (do_calls (without_set_level cs) lg) = level lg.
Proof.
  revert lg. induction cs as [|c cs IH]; intros lg; [reflexivity|].
  unfold without_set_level, do_calls in *. simpl.
  destruct (is_set_level c) eqn:Hc; simpl; [apply IH|].
  rewrite IH, level_do_call. destruct c; try reflexivity; discriminate.
Qed.

Lemma do_calls_app (cs1 cs2 : list Call) lg :
  do_calls (cs1 ++ cs2) lg = do_calls cs2 (do_calls cs1 lg).
Proof. apply fold_left_app. Qed.

Lemma get_level_of_level lg :
  outcome (get_level lg) =
  match level lg with
  | Some l => Returned l
  | None => Raised LoggerErrorLevelNotSet
  end.
Proof. unfold get_level. destruct (level lg); reflexivity. Qed.

(** C6.  On a logger on which [set_level] was never called, whatever
    else was called, [get_level] fails with [LoggerErrorLevelNotSet];
    after [set_level l], and any calls other than [set_level] after it,
    [get_level] returns exactly [l], whatever threshold was set before;
    setting the same level twice is the same as setting it once. *)
Theorem get_level_after_set_level (s0 : S) (before after : list Call) lg l :
  outcome (get_level (do_calls (without_set_level before) (new_logger s0)))
    = Raised LoggerErrorLevelNotSet
  /\ outcome (get_level
                (do_calls (before ++ CallSetLevel l :: without_set_level after) lg))
    = Returned l
  /\ outcome ((set_level l ;; get_level)%cxx lg) = Returned l
  /\ final_state ((set_level l ;; set_level l)%cxx lg) = final_state (set_level l lg).
Proof.
  repeat split.
  - rewrite get_level_of_level, level_without_set_level. reflexivity.
  - rewrite do_calls_app. change (CallSetLevel l :: without_set_level after)
      with ([CallSetLevel l] ++ without_set_level after).
    rewrite do_calls_app, get_level_of_level, level_without_set_level.
    reflexivity.
Qed.

(** C7.  [is_enabled_for] changes nothing and never fails; it answers
    false whenever [is_level_set] answers false, and otherwise it answers
    whether the ordinal of the message level is at most the ordinal of
    the configured threshold. *)
Theorem is_enabled_for_threshold lg l :
  final_state (is_enabled_for l lg) = lg
  /\ (outcome (is_level_set lg) = Returned false ->
      outcome (is_enabled_for l lg) = Returned false)
  /\ (forall threshold,
        outcome (get_level lg) = Returned threshold ->
        outcome (is_level_set lg) = Returned true
        /\ outcome (is_enabled_for l lg)
           = Returned (bool_decide (level_ord l <= level_ord threshold)%N)).
Proof.
  split; [reflexivity|]. split.
  - unfold is_level_set, is_enabled_for, gets, outcome; simpl.
    destruct (level lg); [discriminate|reflexivity].
  - intros threshold. rewrite get_level_of_level.
    unfold is_level_set, is_enabled_for, gets, outcome; simpl.
    destruct (level lg) as [t|]; [|discriminate].
    intros [= ->]. split; [reflexivity|].
    f_equal. destruct (N.leb_spec (level_ord l) (level_ord threshold)) as [Hle|Hlt].
    + rewrite bool_decide_eq_true_2; [reflexivity|exact Hle].
    + rewrite bool_decide_eq_false_2; [reflexivity|lia].
Qed.


Lemma write_calls_app (evs1 evs2 : list Event) :
  write_calls (evs1 ++ evs2) = write_calls evs1 ++ write_calls evs2.
Proof. apply List.filter_app. Qed.

(** [log], step by step: the expansion is attempted first; only when it
    succeeds the record is stamped and written. *)
Lemma log_steps lg l format args :
  log l format args lg =
  match sformat format args with
  | inr message =>
      let time := system_clock_now (clock_reads lg) in
      (mkLogger (level lg) (write time getpid l message (sink lg))
                ((events lg ++ [EvFormat format args]) ++ [EvWrite time getpid l message])
                (Datatypes.S (clock_reads lg)),
       Returned tt)
  | inl e =>
      (mkLogger (level lg) (sink lg) (events lg ++ [EvFormat format args]) (clock_reads lg),
       Raised e)
  end.
Proof.
  unfold log, call_sformat, bind, emit, modify. simpl.
  destruct (sformat format args); reflexivity.
Qed.

Lemma convenience_is_log l format args :
  convenience l format args = log l format args.
Proof. destruct l; reflexivity. Qed.


(** C8, as the code has it.  [log_line] always returns.  [log], and with
    it every convenience call, returns when the template expansion
    succeeds; when the expansion raises, the exception leaves [log], the
    sink is untouched and [write] is not reached. *)
Theorem log_raises_when_format_fails lg l format args message :
  outcome (log_line l message lg) = Returned tt
  /\ outcome (convenience l format args lg) = outcome (log l format args lg)
  /\ match sformat format args with
     | inr _ => outcome (log l format args lg) = Returned tt
     | inl e =>
         outcome (log l format args lg) = Raised e
         /\ sink (final_state (log l format args lg)) = sink lg
         /\ write_calls (events (final_state (log l format args lg)))
            = write_calls (events lg)
     end.
Proof.
  split; [reflexivity|]. split; [rewrite convenience_is_log; reflexivity|].
  rewrite log_steps. destruct (sformat format args); simpl; [|reflexivity].
  repeat split. rewrite write_calls_app. simpl. apply app_nil_r.
Qed.

(** *** Further properties of logger.hpp *)

Lemma level_set_after_calls (cs : list Call) lg :
  match level (do_calls cs lg) with Some _ => true | None => false end
  = existsb is_set_level cs || match level lg with Some _ => true | None => false end.
Proof.
  revert lg. induction cs as [|c cs IH]; intros lg; [reflexivity|].
  change (do_calls (c :: cs) lg) with (do_calls cs (do_call lg c)).
  rewrite IH, level_do_call. simpl.
  destruct c; simpl; try reflexivity.
  rewrite orb_true_r. reflexivity.
Qed.

(** X1.  [level_to_cstr] gives the seven enumerators seven different
    names, none of them [UNDEFINED]; on the unsigned value the answer is
    [UNDEFINED] exactly from 7 on, and below 7 it is the entry of
    [LEVEL_C_STR] at that index. *)
Theorem level_to_cstr_distinct_and_bounded (l l' : Level) (ilevel : N) :
  (level_to_cstr l = level_to_cstr l' <-> l = l')
  /\ level_to_cstr l <> "UNDEFINED"
  /\ (level_to_cstr_u ilevel = "UNDEFINED" <-> (7 <= ilevel)%N)
  /\ ((ilevel < 7)%N <->
      nth_error LEVEL_C_STR (N.to_nat ilevel) = Some (level_to_cstr_u ilevel)).
Proof.
  assert (Hsmall : (ilevel < 7)%N ->
                   ilevel = 0%N \/ ilevel = 1%N \/ ilevel = 2%N \/ ilevel = 3%N
                   \/ ilevel = 4%N \/ ilevel = 5%N \/ ilevel = 6%N) by lia.
  assert (Hlarge : (7 <= ilevel)%N -> level_to_cstr_u ilevel = "UNDEFINED").
  { intros Hle. unfold level_to_cstr_u. simpl length.
    destruct (N.leb_spec (N.of_nat 7) ilevel) as [_|Hlt]; [reflexivity|lia]. }
  split; [|split; [|split]].
  - split; [|intros ->; reflexivity].
    destruct l, l'; intros H; try reflexivity; discriminate H.
  - destruct l; discriminate.
  - split; [|exact Hlarge].
    intros Hundef. destruct (N.le_gt_cases 7 ilevel) as [Hle|Hlt]; [exact Hle|].
    destruct (Hsmall Hlt) as [->|[->|[->|[->|[->|[->| ->]]]]]]; discriminate Hundef.
  - split.
    + intros Hlt.
      destruct (Hsmall Hlt) as [->|[->|[->|[->|[->|[->| ->]]]]]]; reflexivity.
    + intros Hnth. destruct (N.le_gt_cases 7 ilevel) as [Hle|Hlt]; [|exact Hlt].
      assert (Hnone : nth_error LEVEL_C_STR (N.to_nat ilevel) = None).
      { apply nth_error_None. simpl. lia. }
      rewrite Hnone in Hnth. discriminate Hnth.
Qed.

(** X2.  After any sequence of calls on a new logger, [is_level_set]
    answers true exactly when [set_level] is among the calls: no member
    function takes a threshold away again. *)
Theorem level_set_iff_set_level_called (s0 : S) (cs : list Call) :
  outcome (is_level_set (do_calls cs (new_logger s0)))
  = Returned (existsb is_set_level cs).
Proof.
  unfold is_level_set, gets, outcome. simpl.
  rewrite level_set_after_calls. simpl. rewrite orb_false_r. reflexivity.
Qed.

End LoggerProperties.

(** *** The logger at work *)



(** C8 fails as stated: a convenience call whose template expansion fails
    raises to its caller. *)
Lemma info_raises_format_error :
  outcome (Logger.info (RT := Logger.rt) (SK := Logger.memory_sink)
             "{}" [] Logger.warning_logger)
  = Raised (FormatError "argument not found").
Proof. reflexivity. Qed.

(** A fresh logger has no level and enables nothing; with threshold
    [WARNING], [get_level] returns it and [NOTICE] is not enabled. *)
Lemma is_enabled_for_warning :
  (outcome (Logger.is_level_set (Logger.new_logger (S := list nat) [])) = Returned false
   /\ outcome (Logger.is_enabled_for Logger.CRITICAL (Logger.new_logger (S := list nat) []))
      = Returned false)
  /\ outcome (Logger.get_level Logger.warning_logger) = Returned Logger.WARNING
  /\ outcome (Logger.is_level_set Logger.warning_logger) = Returned true
  /\ outcome (Logger.is_enabled_for Logger.NOTICE Logger.warning_logger) = Returned false.
Proof.
  split.
  - split; [reflexivity|].
    destruct (is_enabled_for_threshold (Logger.new_logger (S := list nat) [])
                Logger.CRITICAL) as (_ & H & _).
    exact (H eq_refl).
  - split; [reflexivity|].
    destruct (is_enabled_for_threshold Logger.warning_logger Logger.NOTICE)
      as (_ & _ & H).
    exact (H Logger.WARNING eq_refl).
Defined.

(** * Properties of the install command *)

Section InstallProperties.
Import Install.

Implicit Types (ctx : Ctx) (patterns : list OptionPtr) (past : list DbTransaction).

Lemma add_patterns_result patterns (goal : Goal) (st : State) :
  add_patterns patterns goal st =
  (mkState (events st ++ map EvAddRpmInstall (leading_values patterns))
           (history st) (clock_reads st),
   if forallb is_option_string patterns
   then Returned (goal ++ leading_values patterns)
   else Undefined).
Proof.
  revert goal st. induction patterns as [|pattern rest IH]; intros goal st.
  - destruct st. simpl. rewrite !app_nil_r. reflexivity.
  - simpl. unfold is_option_string.
    destruct (dynamic_cast_OptionString pattern) as [o|]; simpl.
    + unfold bind, goal_add_rpm_install, emit, modify, ret, bind. simpl.
      rewrite IH. simpl. rewrite <- !app_assoc. reflexivity.
    + unfold undefined. destruct st. simpl. rewrite app_nil_r. reflexivity.
Qed.

Lemma alter_last {A} (f : A -> A) (l : list A) (x : A) :
  alter f (length l) (l ++ [x]) = l ++ [f x].
Proof.
  replace (length l) with (length l + 0) by lia.
  rewrite alter_app_r. reflexivity.
Qed.

Ltac run_eval :=
  unfold run, start_state, create_system_repo, load_rpm_repos, cout_endl,
    goal_resolve, print_transaction_table, userconfirm, download_packages,
    new_rpm_transaction, new_db_transaction, fill_transactions, set_dt_start,
    start, set_dt_end, finish, on_record, run_transaction, now, emit,
    returns_or_raises, modify, ret, raise, undefined;
  unfold bind; simpl.

Ltac run_leaf r :=
  subst r; run_eval;
  repeat (match goal with
          | H : _ = _ |- _ => rewrite H
          | |- _ => rewrite add_patterns_result
          | |- _ => rewrite alter_last
          end; simpl);
  rewrite <- ?app_assoc; simpl; try reflexivity.

(** What a run does, by the answers of the collaborators. *)
Lemma run_cases ctx patterns past :
  let r := run ctx patterns (start_state past) in
  let goal := leading_values patterns in
  let h := length past in
  let loaded :=
    [EvCreateSystemRepo false;
     EvLoadRpmRepos true [USE_FILELISTS; USE_PRESTO; USE_UPDATEINFO; USE_OTHER]] in
  let built := loaded ++ [EvCout ""] ++ map EvAddRpmInstall goal in
  let problem := goal_resolve_result ctx goal false in
  let resolved := built ++ [EvResolve false problem] in
  let previewed := resolved ++ [EvPrintTransactionTable (print_transaction_table_result ctx goal)] in
  let asked := previewed ++ [EvUserConfirm (userconfirm_result ctx)] in
  let downloading := asked ++ [EvDownloadPackages] in
  let t_start := seconds_of ctx (system_clock_now ctx 0) in
  let t_end := seconds_of ctx (system_clock_now ctx 1) in
  let executing :=
    downloading ++ [EvCout ""; EvNewRpmTransaction; EvNewDbTransaction h;
                    EvFillTransactions h; EvSetDtStart h t_start; EvStart h;
                    EvRunTransaction] in
  match load_rpm_repos_result ctx with
  | Some e => r = (mkState loaded past 0, Raised e)
  | None =>
    if negb (forallb is_option_string patterns)
    then r = (mkState built past 0, Undefined)
    else if negb (bool_decide (problem = NO_PROBLEM))
    then r = (mkState (resolved ++ [EvCout (goal_formated_all_problems ctx goal)]) past 0,
              Returned tt)
    else if negb (print_transaction_table_result ctx goal)
    then r = (mkState previewed past 0, Returned tt)
    else if negb (userconfirm_result ctx)
    then r = (mkState (asked ++ [EvCout "Operation aborted."]) past 0, Returned tt)
    else
      match download_packages_result ctx with
      | Some e => r = (mkState downloading past 0, Raised e)
      | None =>
        match run_transaction_result ctx with
        | Some e =>
            r = (mkState executing
                         (past ++ [mkDbTransaction (Some t_start) None true None]) 1,
                 Raised e)
        | None =>
            r = (mkState (executing ++ [EvSetDtEnd h t_end; EvFinish h DONE])
                         (past ++ [mkDbTransaction (Some t_start) (Some t_end) true (Some DONE)])
                         2,
                 Returned tt)
        end
      end
  end.
Proof.
  cbv zeta. set (r := run ctx patterns (start_state past)).
  destruct (load_rpm_repos_result ctx) as [e|] eqn:Hload; [run_leaf r|].
  destruct (forallb is_option_string patterns) eqn:Hall; simpl; [|run_leaf r].
  destruct (bool_decide (goal_resolve_result ctx (leading_values patterns) false
                         = NO_PROBLEM)) eqn:Hproblem; simpl; [|run_leaf r].
  destruct (print_transaction_table_result ctx (leading_values patterns)) eqn:Hshown;
    simpl; [|run_leaf r].
  destruct (userconfirm_result ctx) eqn:Hyes; simpl; [|run_leaf r].
  destruct (download_packages_result ctx) as [e|] eqn:Hdownload; [run_leaf r|].
  destruct (run_transaction_result ctx) as [e|] eqn:Hexec; run_leaf r.
Qed.

Lemma filter_add_rpm_install (f : Event -> bool) (goal : Goal) :
  (forall spec, f (EvAddRpmInstall spec) = false) ->
  List.filter f (map EvAddRpmInstall goal) = [].
Proof.
  intros Hf. induction goal as [|spec goal IH]; simpl; [reflexivity|].
  rewrite Hf. exact IH.
Qed.

(** Counts of events in an event list that is given by its parts. *)
Ltac count_events :=
  unfold download_calls, finish_calls; simpl;
  rewrite ?List.filter_app, ?length_app;
  rewrite ?filter_add_rpm_install by reflexivity;
  simpl; rewrite ?Nat.eqb_refl; simpl; try reflexivity.

Lemma seconds_of_mono ctx (t t' : Z) :
  (t <= t')%Z -> (seconds_of ctx t <= seconds_of ctx t')%Z.
Proof.
  intros Hle. unfold seconds_of, duration_cast_seconds.
  apply Z.quot_le_mono; [lia|exact Hle].
Qed.

(** Splits on the answers of the collaborators that decide the run. *)
Ltac run_split ctx patterns past Hrun :=
  pose proof (run_cases ctx patterns past) as Hrun; cbv zeta in Hrun;
  repeat match type of Hrun with
         | match negb ?c with _ => _ end => destruct c eqn:?; simpl in Hrun
         | match ?c with _ => _ end => destruct c eqn:?; simpl in Hrun
         end;
  rewrite Hrun in *; clear Hrun; unfold final_state, outcome in *; simpl in *;
  repeat match goal with
         | H : bool_decide _ = true |- _ => apply bool_decide_eq_true_1 in H
         | H : bool_decide _ = false |- _ => apply bool_decide_eq_false_1 in H
         end.

(** Membership in an event list that is given by its parts. *)
Ltac in_cases H :=
  repeat first
    [ progress (simpl in H)
    | rewrite in_app_iff in H
    | rewrite in_map_iff in H
    | match type of H with
      | _ \/ _ => destruct H as [H|H]
      | False => destruct H
      | exists _, _ /\ _ => let x := fresh "x" in destruct H as [x [H _]]
      | _ = _ => first [discriminate H | injection H as ?]
      end ].

Ltac not_in :=
  let Hin := fresh "Hin" in
  intros Hin;
  try (let h := fresh "h" in destruct Hin as [h Hin]);
  in_cases Hin.

(** C3.  In a run in which the resolution reports a problem, the problem
    text of the goal is written to the output right after the resolution
    and the run returns; nothing was downloaded, no history record was
    created, the history is as before, and the execution was not called. *)
Theorem resolution_problem_ends_run ctx patterns past (problem : GoalProblem) :
  let r := run ctx patterns (start_state past) in
  let evs := events (final_state r) in
  In (EvResolve false problem) evs ->
  problem <> NO_PROBLEM ->
  (exists before,
      evs = before ++ [EvResolve false problem;
                       EvCout (goal_formated_all_problems ctx (leading_values patterns))])
  /\ outcome r = Returned tt
  /\ history (final_state r) = past
  /\ ~ record_created evs
  /\ ~ In EvRunTransaction evs
  /\ ~ In EvDownloadPackages evs.
Proof.
  intros r evs Hin Hproblem. subst evs r.
  run_split ctx patterns past Hrun; in_cases Hin; subst; try congruence.
  split.
  - exists (built_events (leading_values patterns)). unfold built_events. simpl.
    rewrite <- !app_assoc. reflexivity.
  - repeat split; unfold record_created; not_in.
Qed.

(** C4.  In a run in which the transaction table reports nothing to
    show, or the user does not confirm, the run returns; nothing was
    downloaded, the execution was not called, no history record was
    created and the history is as before.  After a refusal the line
    [Operation aborted.] is the last thing written. *)
Theorem refusal_or_empty_preview_ends_run ctx patterns past :
  let r := run ctx patterns (start_state past) in
  let evs := events (final_state r) in
  In (EvPrintTransactionTable false) evs \/ In (EvUserConfirm false) evs ->
  outcome r = Returned tt
  /\ history (final_state r) = past
  /\ ~ In EvDownloadPackages evs
  /\ ~ In EvRunTransaction evs
  /\ ~ record_created evs
  /\ (In (EvUserConfirm false) evs ->
      exists before, evs = before ++ [EvUserConfirm false; EvCout "Operation aborted."]).
Proof.
  intros r evs Hin. subst evs r.
  destruct Hin as [Hin|Hin];
    run_split ctx patterns past Hrun; in_cases Hin; subst; try congruence.
  - repeat split; unfold record_created; not_in.
  - repeat split; unfold record_created; [not_in | not_in | not_in | intros _].
    exists (built_events (leading_values patterns)
            ++ [EvResolve false (goal_resolve_result ctx (leading_values patterns) false);
                EvPrintTransactionTable true]).
    unfold built_events. simpl. rewrite <- !app_assoc. reflexivity.
Qed.

(** C5.  In a run whose download fails, the exception of the download
    leaves [run]; the download was called once and is the last call of
    the run: no history record was created, the history is as before and
    the execution was not called. *)
Theorem download_failure_ends_run ctx patterns past (e : Exn) :
  let r := run ctx patterns (start_state past) in
  let evs := events (final_state r) in
  In EvDownloadPackages evs ->
  download_packages_result ctx = Some e ->
  outcome r = Raised e
  /\ download_calls evs = 1
  /\ (exists before, evs = before ++ [EvDownloadPackages])
  /\ history (final_state r) = past
  /\ ~ record_created evs
  /\ ~ In EvRunTransaction evs.
Proof.
  intros r evs Hin Hfail. subst evs r.
  run_split ctx patterns past Hrun; in_cases Hin; subst; try congruence.
  injection Hfail as ->.
  split; [reflexivity|]. split; [count_events|]. split.
  - exists (built_events (leading_values patterns)
            ++ [EvResolve false (goal_resolve_result ctx (leading_values patterns) false);
                EvPrintTransactionTable true; EvUserConfirm true]).
    unfold built_events. simpl. rewrite <- !app_assoc. reflexivity.
  - repeat split; unfold record_created; not_in.
Qed.

(** C2, as the code has it.  In a run that creates a history record, the
    finish state of the record is set exactly once when the execution
    returns, and never when the execution raises; at the end of the run
    the record has a state iff it has an end time; and when the second
    reading of the clock is not before the first, an end time is not
    before the start time. *)
Theorem record_finish_is_consistent ctx patterns past (h : nat) :
  let r := run ctx patterns (start_state past) in
  let evs := events (final_state r) in
  In (EvNewDbTransaction h) evs ->
  exists rec : DbTransaction,
    history (final_state r) !! h = Some rec
    /\ finish_calls h evs
       = match run_transaction_result ctx with None => 1 | Some _ => 0 end
    /\ (is_Some (state rec) <-> is_Some (dt_end rec))
    /\ ((system_clock_now ctx 0 <= system_clock_now ctx 1)%Z ->
        forall s e : Z, dt_start rec = Some s -> dt_end rec = Some e -> (s <= e)%Z).
Proof.
  intros r evs Hin. subst evs r.
  run_split ctx patterns past Hrun; in_cases Hin; subst; try congruence.
  - eexists. split; [apply list_lookup_middle; reflexivity|].
    split; [count_events|]. simpl. split.
    + split; intros [x Hx]; discriminate.
    + intros _ s t _ Ht. discriminate.
  - eexists. split; [apply list_lookup_middle; reflexivity|].
    split; [count_events|]. simpl. split.
    + split; intros _; eexists; reflexivity.
    + intros Hclock s t [= <-] [= <-]. apply seconds_of_mono, Hclock.
Qed.

(** C9, as the code has it.  In a run that reaches the execution, the
    start time of the new record is set and the record is marked started
    right before the execution is called, and the execution was not called
    earlier.  When the execution returns, the end time is set and the
    state is set to [DONE] right after it and the run returns.  When the
    execution raises, its exception leaves [run]: the record stays
    started, without end time and without state. *)
Theorem record_started_before_execution ctx patterns past :
  let r := run ctx patterns (start_state past) in
  let evs := events (final_state r) in
  let h := length past in
  let t_start := seconds_of ctx (system_clock_now ctx 0) in
  let t_end := seconds_of ctx (system_clock_now ctx 1) in
  In EvRunTransaction evs ->
  exists before,
    ~ In EvRunTransaction before
    /\ In (EvNewDbTransaction h) before
    /\ match run_transaction_result ctx with
       | None =>
           evs = before ++ [EvSetDtStart h t_start; EvStart h; EvRunTransaction;
                            EvSetDtEnd h t_end; EvFinish h DONE]
           /\ history (final_state r)
              = past ++ [mkDbTransaction (Some t_start) (Some t_end) true (Some DONE)]
           /\ outcome r = Returned tt
       | Some e =>
           evs = before ++ [EvSetDtStart h t_start; EvStart h; EvRunTransaction]
           /\ history (final_state r)
              = past ++ [mkDbTransaction (Some t_start) None true None]
           /\ outcome r = Raised e
       end.
Proof.
  intros r evs h t_start t_end Hin. subst evs r h t_start t_end.
  run_split ctx patterns past Hrun; in_cases Hin; subst; try congruence;
    (exists (built_events (leading_values patterns)
             ++ [EvResolve false (goal_resolve_result ctx (leading_values patterns) false);
                 EvPrintTransactionTable true; EvUserConfirm true; EvDownloadPackages;
                 EvCout ""; EvNewRpmTransaction; EvNewDbTransaction (length past);
                 EvFillTransactions (length past)]));
    (split; [unfold built_events; not_in|]);
    (split; [rewrite in_app_iff; right; simpl; tauto|]);
    unfold built_events; simpl; rewrite <- !app_assoc; simpl; repeat split.
Qed.

Lemma is_option_string_spec (pattern : OptionPtr) :
  is_option_string pattern = true <-> exists o, pattern = Some (AnOptionString o).
Proof.
  unfold is_option_string. destruct pattern as [[o|b|n]|]; simpl; split;
    try discriminate; try (intros [o' [=]]); eauto.
Qed.

Lemma collected_patterns_option_strings (argv : list string) :
  forallb is_option_string (collected_patterns set_argument_parser argv) = true.
Proof.
  unfold collected_patterns, set_argument_parser, parse_positional. simpl.
  induction argv as [|text argv IH]; simpl; [reflexivity|exact IH].
Qed.

(** C10.  The loop dereferences the result of the cast as it is: it runs
    into a null dereference exactly when some pattern is not an
    [OptionString] object, and so does a run whose repositories load.  The
    patterns collected for the positional argument registered by
    [set_argument_parser] are all [OptionString] objects, so a run on them
    has no null dereference. *)
Theorem loop_dereference_needs_option_strings ctx patterns past
    (goal : Goal) (st : State) (argv : list string) :
  (outcome (add_patterns patterns goal st) = Undefined
   <-> exists pattern, In pattern patterns
                       /\ forall o, pattern <> Some (AnOptionString o))
  /\ (outcome (run ctx patterns (start_state past)) = Undefined
      <-> load_rpm_repos_result ctx = None
          /\ forallb is_option_string patterns = false)
  /\ Forall (fun pattern => exists o, pattern = Some (AnOptionString o))
            (collected_patterns set_argument_parser argv)
  /\ outcome (run ctx (collected_patterns set_argument_parser argv) (start_state past))
     <> Undefined.
Proof.
  split; [|split; [|split]].
  - rewrite add_patterns_result. unfold outcome. simpl.
    destruct (forallb is_option_string patterns) eqn:Hall.
    + split; [discriminate|]. intros (pattern & Hin & Hnot).
      rewrite forallb_forall in Hall. apply Hall, is_option_string_spec in Hin.
      destruct Hin as [o ->]. destruct (Hnot o). reflexivity.
    + split; [intros _|reflexivity].
      assert (Hex : existsb (fun p => negb (is_option_string p)) patterns = true).
      { clear -Hall. induction patterns as [|p ps IH]; simpl in *; [discriminate|].
        destruct (is_option_string p); simpl in *; [apply IH, Hall|reflexivity]. }
      apply existsb_exists in Hex. destruct Hex as (pattern & Hin & Hnot).
      exists pattern. split; [exact Hin|]. intros o ->. discriminate.
  - run_split ctx patterns past Hrun; split; try discriminate;
      try (intros [? ?]; congruence); try (split; congruence).
  - apply List.Forall_forall. intros pattern Hin. apply is_option_string_spec.
    pose proof (collected_patterns_option_strings argv) as Hall.
    rewrite forallb_forall in Hall. apply Hall. exact Hin.
  - intros Hundef.
    pose proof (collected_patterns_option_strings argv) as Hall.
    run_split ctx (collected_patterns set_argument_parser argv) past Hrun;
      congruence.
Qed.

(** *** Further properties of install.cpp *)

Lemma leading_values_string_patterns (texts : list string) :
  leading_values (map string_pattern texts) = texts.
Proof. induction texts as [|text texts IH]; simpl; [reflexivity|]. rewrite IH. reflexivity. Qed.

Lemma forallb_string_patterns (texts : list string) :
  forallb is_option_string (map string_pattern texts) = true.
Proof. induction texts as [|text texts IH]; simpl; [reflexivity|exact IH]. Qed.

(** X3.  The loop over two pattern lists in a row is the loop over the
    first followed by the loop over the second on the goal the first
    leaves; a null dereference in the first keeps the second from
    running. *)
Theorem add_patterns_app (patterns1 patterns2 : list OptionPtr) (goal : Goal) (st : State) :
  add_patterns (patterns1 ++ patterns2) goal st
  = (goal' <- add_patterns patterns1 goal ;; add_patterns patterns2 goal')%cxx st.
Proof.
  revert goal st. induction patterns1 as [|pattern rest IH]; intros goal st.
  - reflexivity.
  - simpl. destruct (dynamic_cast_OptionString pattern) as [o|]; [|reflexivity].
    unfold bind.
    destruct (goal_add_rpm_install goal (get_value o) st) as [st' [goal'|e|]];
      [|reflexivity|reflexivity].
    rewrite IH. reflexivity.
Qed.

(** X4.  On string options the loop adds one install request per
    pattern, in the order of the list, behind the requests the goal
    already has; it returns and touches neither history nor clock. *)
Theorem add_patterns_adds_each_pattern (texts : list string) (goal : Goal) (st : State) :
  add_patterns (map string_pattern texts) goal st
  = (mkState (events st ++ map EvAddRpmInstall texts) (history st) (clock_reads st),
     Returned (goal ++ texts)).
Proof.
  rewrite add_patterns_result, leading_values_string_patterns, forallb_string_patterns.
  reflexivity.
Qed.

(** X5.  The loop stops at the first pattern that is not a string option:
    the requests of the patterns before it are already added, the
    dereference of the null pointer is undefined, and the patterns behind
    it are never looked at. *)
Theorem add_patterns_stops_at_first_bad
    (texts : list string) (bad : OptionPtr) (rest rest' : list OptionPtr)
    (goal : Goal) (st : State) :
  is_option_string bad = false ->
  add_patterns (map string_pattern texts ++ bad :: rest) goal st
  = (mkState (events st ++ map EvAddRpmInstall texts) (history st) (clock_reads st),
     Undefined)
  /\ add_patterns (map string_pattern texts ++ bad :: rest) goal st
     = add_patterns (map string_pattern texts ++ bad :: rest') goal st.
Proof.
  intros Hbad.
  assert (Hstop : forall tail,
            add_patterns (map string_pattern texts ++ bad :: tail) goal st
            = (mkState (events st ++ map EvAddRpmInstall texts) (history st)
                       (clock_reads st), Undefined)).
  { intros tail. rewrite add_patterns_result.
    assert (Hvalues : leading_values (map string_pattern texts ++ bad :: tail) = texts).
    { clear -Hbad. induction texts as [|text texts IH]; simpl.
      - unfold is_option_string in Hbad.
        destruct (dynamic_cast_OptionString bad); [discriminate|reflexivity].
      - rewrite IH. reflexivity. }
    assert (Hall : forallb is_option_string (map string_pattern texts ++ bad :: tail)
                   = false).
    { rewrite forallb_app. simpl. rewrite Hbad. simpl. apply andb_false_r. }
    rewrite Hvalues, Hall. reflexivity. }
  split; [apply Hstop|]. rewrite !Hstop. reflexivity.
Qed.

(** X6.  When the repository load fails, its exception leaves [run] at
    once, whatever the patterns are: the system repository was created
    and the load was called, and nothing else happened; nothing was
    written, no request was added and the history is as before. *)
Theorem load_failure_ends_run ctx patterns past (e : Exn) :
  load_rpm_repos_result ctx = Some e ->
  run ctx patterns (start_state past)
  = (mkState [EvCreateSystemRepo false;
              EvLoadRpmRepos true [USE_FILELISTS; USE_PRESTO; USE_UPDATEINFO; USE_OTHER]]
             past 0,
     Raised e).
Proof.
  intros Hload. pose proof (run_cases ctx patterns past) as Hrun. cbv zeta in Hrun.
  rewrite Hload in Hrun. exact Hrun.
Qed.

(** X7.  A run downloads only after a resolution without problem, a
    transaction table with content and a confirmation of the user, in
    this order and right before the download; and it downloads once. *)
Theorem download_needs_confirmation ctx patterns past :
  let evs := events (final_state (run ctx patterns (start_state past))) in
  In EvDownloadPackages evs ->
  download_calls evs = 1
  /\ exists before after,
       evs = before ++ [EvResolve false NO_PROBLEM; EvPrintTransactionTable true;
                        EvUserConfirm true; EvDownloadPackages] ++ after
       /\ ~ In EvDownloadPackages before
       /\ ~ In EvDownloadPackages after.
Proof.
  intros evs Hin. subst evs.
  run_split ctx patterns past Hrun; in_cases Hin; subst; try congruence;
    (split; [count_events|]);
    exists (built_events (leading_values patterns));
    match goal with
    | H : goal_resolve_result _ _ _ = NO_PROBLEM |- _ => rewrite H
    end;
    eexists; (split; [unfold built_events; simpl; rewrite <- !app_assoc; simpl;
                      reflexivity|]);
    (split; [unfold built_events; not_in|not_in]).
Qed.

(** X8.  A run never changes or removes a record that was in the history
    before it, and it adds at most one record: exactly when it calls
    [new_db_transaction], and then at the end of the history. *)
Theorem run_keeps_earlier_records ctx patterns past :
  let r := run ctx patterns (start_state past) in
  take (length past) (history (final_state r)) = past
  /\ length (history (final_state r)) <= S (length past)
  /\ (length (history (final_state r)) = S (length past)
      <-> In (EvNewDbTransaction (length past)) (events (final_state r)))
  /\ (record_created (events (final_state r))
      <-> In (EvNewDbTransaction (length past)) (events (final_state r))).
Proof.
  intros r. subst r.
  run_split ctx patterns past Hrun;
    (split; [first [apply firstn_all | apply take_app_length]|]);
    (split; [rewrite ?length_app; simpl; lia|]);
    (split;
     [ split;
       [ intros Hlen;
         first [ rewrite ?length_app in Hlen; simpl in Hlen; lia
               | rewrite !in_app_iff; simpl; tauto ]
       | intros Hin;
         first [ rewrite length_app; simpl; lia | in_cases Hin ] ]
     | unfold record_created; split;
       [ intros [h Hin]; in_cases Hin; subst; rewrite !in_app_iff; simpl; tauto
       | intros Hin; exists (length past); exact Hin ] ]).
Qed.

(** X9.  A run creates a history record exactly when the repositories
    load, every pattern is a string option, the resolution reports no
    problem, the table has content, the user confirms and the download
    returns; and the record ends with the state [DONE] exactly when, on
    top of that, the execution returns. *)
Theorem record_created_iff_download_returns ctx patterns past :
  let r := run ctx patterns (start_state past) in
  let goal := leading_values patterns in
  let reaches_commit :=
    load_rpm_repos_result ctx = None
    /\ forallb is_option_string patterns = true
    /\ goal_resolve_result ctx goal false = NO_PROBLEM
    /\ print_transaction_table_result ctx goal = true
    /\ userconfirm_result ctx = true
    /\ download_packages_result ctx = None in
  (record_created (events (final_state r)) <-> reaches_commit)
  /\ ((exists rec, history (final_state r) !! length past = Some rec
                   /\ state rec = Some DONE)
      <-> reaches_commit /\ run_transaction_result ctx = None).
Proof.
  cbv zeta. unfold record_created.
  run_split ctx patterns past Hrun; (split; [split|split]).
  all: try (intros [h Hin]; in_cases Hin; subst; repeat split; congruence).
  all: try (intros (? & ? & ? & ? & ? & ?);
            first [ congruence
                  | exists (length past); rewrite !in_app_iff; simpl; tauto ]).
  all: try (intros ((? & ? & ? & ? & ? & ?) & ?);
            first [ congruence
                  | eexists; split; [apply list_lookup_middle; reflexivity|reflexivity] ]).
  all: intros (rec & Hrec & Hstate);
    first [ rewrite lookup_ge_None_2 in Hrec by lia; discriminate Hrec
          | rewrite list_lookup_middle in Hrec by reflexivity;
            injection Hrec as <-;
            first [ discriminate Hstate | repeat split; congruence ] ].
Qed.

(** X10.  [run] returns normally exactly when the repositories load,
    every pattern is a string option, and either the resolution reports a
    problem, or the table has nothing to show, or the user does not
    confirm, or both the download and the execution return.  Problems of
    the resolution and a refusal are not signalled to the caller. *)
Theorem run_returns_iff ctx patterns past :
  let goal := leading_values patterns in
  outcome (run ctx patterns (start_state past)) = Returned tt
  <-> load_rpm_repos_result ctx = None
      /\ forallb is_option_string patterns = true
      /\ (goal_resolve_result ctx goal false <> NO_PROBLEM
          \/ print_transaction_table_result ctx goal = false
          \/ userconfirm_result ctx = false
          \/ (download_packages_result ctx = None
              /\ run_transaction_result ctx = None)).
Proof.
  cbv zeta.
  run_split ctx patterns past Hrun; split;
    try discriminate;
    try (intros (? & ? & [?|[?|[?|[? ?]]]]); congruence);
    intros _; (split; [reflexivity|]); (split; [reflexivity|]); auto.
Qed.

(** X11.  [run] has no special case for an empty pattern list: when the
    repositories load, it resolves the empty goal, and it never runs into
    a null dereference. *)
Theorem run_without_patterns ctx past :
  load_rpm_repos_result ctx = None ->
  (exists after,
      events (final_state (run ctx [] (start_state past)))
      = [EvCreateSystemRepo false;
         EvLoadRpmRepos true [USE_FILELISTS; USE_PRESTO; USE_UPDATEINFO; USE_OTHER];
         EvCout ""; EvResolve false (goal_resolve_result ctx [] false)] ++ after)
  /\ outcome (run ctx [] (start_state past)) <> Undefined.
Proof.
  intros Hload. pose proof (run_cases ctx [] past) as Hrun.
  cbv zeta in Hrun. rewrite Hload in Hrun. simpl in Hrun.
  repeat match type of Hrun with
         | match negb ?c with _ => _ end => destruct c; simpl in Hrun
         | match ?c with _ => _ end => destruct c; simpl in Hrun
         end;
    rewrite Hrun; unfold final_state, outcome; simpl;
    (split; [eexists; reflexivity|discriminate]).
Qed.

Lemma seconds_of_bounds ctx (t : Z) :
  let seconds := seconds_of ctx t in
  let tps := Z.pos (ticks_per_second ctx) in
  ((0 <= t -> seconds * tps <= t < (seconds + 1) * tps)
   /\ (t <= 0 -> t <= seconds * tps < t + tps))%Z.
Proof.
  cbv zeta. unfold seconds_of, duration_cast_seconds.
  set (tps := Z.pos (ticks_per_second ctx)).
  assert (Htps : (0 < tps)%Z) by (subst tps; lia).
  pose proof (Z.quot_rem' t tps) as Hqr.
  split; intros Ht.
  - pose proof (Z.rem_bound_pos t tps Ht Htps). lia.
  - assert (Hneg : (0 <= - t)%Z) by lia.
    pose proof (Z.rem_bound_pos (- t) tps Hneg Htps) as Hb.
    rewrite Z.rem_opp_l in Hb by lia. lia.
Qed.

(** X12.  The start time of a record is the first reading of the clock
    and the end time the second, each cut to whole seconds toward zero:
    for a reading at or after the epoch the recorded second is the one
    the reading lies in, for a reading before the epoch it is the next
    whole second at or after the reading. *)
Theorem recorded_times_are_whole_seconds ctx patterns past
    (h : nat) (seconds reading : Z) :
  let evs := events (final_state (run ctx patterns (start_state past))) in
  let tps := Z.pos (ticks_per_second ctx) in
  (In (EvSetDtStart h seconds) evs /\ reading = system_clock_now ctx 0)
  \/ (In (EvSetDtEnd h seconds) evs /\ reading = system_clock_now ctx 1) ->
  ((0 <= reading -> seconds * tps <= reading < (seconds + 1) * tps)
   /\ (reading <= 0 -> reading <= seconds * tps < reading + tps))%Z.
Proof.
  intros evs tps [[Hin ->]|[Hin ->]]; subst evs tps;
    run_split ctx patterns past Hrun; in_cases Hin; subst;
    apply seconds_of_bounds.
Qed.

End InstallProperties.

(** *** The install command at work *)

(** Membership in an event list that is known. *)
Ltac in_list := vm_compute; repeat (first [left; reflexivity | right]).

(** Scenario B: the engine reports a problem for [nonexistent]. *)
Lemma install_nonexistent_renders_problem :
  let r := Install.install_nonexistent (Install.test_ctx true None None) in
  In (Install.EvResolve false (Install.PROBLEMS 1)) (Install.events (final_state r))
  /\ Install.PROBLEMS 1 <> Install.NO_PROBLEM
  /\ In (Install.EvCout "No match for argument") (Install.events (final_state r))
  /\ outcome r = Returned tt
  /\ Install.history (final_state r) = [].
Proof.
  unfold Install.install_foo, Install.install_nonexistent. cbv zeta.
  assert (Hin : In (Install.EvResolve false (Install.PROBLEMS 1))
                   (Install.events (final_state
                      (Install.run (Install.test_ctx true None None)
                         [Install.string_pattern "nonexistent"] (Install.start_state [])))))
    by in_list.
  assert (Hne : Install.PROBLEMS 1 <> Install.NO_PROBLEM) by discriminate.
  split; [exact Hin|]. split; [exact Hne|].
  destruct (resolution_problem_ends_run (Install.test_ctx true None None)
              [Install.string_pattern "nonexistent"] [] (Install.PROBLEMS 1) Hin Hne)
    as ([before Hevs] & Hout & Hhist & _).
  split; [|split; [exact Hout|exact Hhist]].
  rewrite Hevs.
  apply in_or_app. right. right. left. reflexivity.
Defined.

(** Scenario C: the user does not confirm; and a run without patterns,
    for which the table has nothing to show. *)
Lemma install_foo_refused :
  let r := Install.install_foo (Install.test_ctx false None None) in
  let r' := Install.run (Install.test_ctx true None None) [] (Install.start_state []) in
  ((In (Install.EvPrintTransactionTable false) (Install.events (final_state r))
    \/ In (Install.EvUserConfirm false) (Install.events (final_state r)))
   /\ outcome r = Returned tt
   /\ Install.history (final_state r) = []
   /\ ~ In Install.EvDownloadPackages (Install.events (final_state r))
   /\ exists before,
        Install.events (final_state r)
        = before ++ [Install.EvUserConfirm false; Install.EvCout "Operation aborted."])
  /\ ((In (Install.EvPrintTransactionTable false) (Install.events (final_state r'))
       \/ In (Install.EvUserConfirm false) (Install.events (final_state r')))
      /\ outcome r' = Returned tt
      /\ ~ In Install.EvDownloadPackages (Install.events (final_state r'))
      /\ ~ In Install.EvRunTransaction (Install.events (final_state r'))).
Proof.
  unfold Install.install_foo. cbv zeta.
  assert (Hin : In (Install.EvUserConfirm false)
                   (Install.events (final_state
                      (Install.run (Install.test_ctx false None None)
                         [Install.string_pattern "foo"] (Install.start_state [])))))
    by in_list.
  assert (Hin' : In (Install.EvPrintTransactionTable false)
                    (Install.events (final_state
                       (Install.run (Install.test_ctx true None None)
                          [] (Install.start_state [])))))
    by in_list.
  split.
  - split; [right; exact Hin|].
    destruct (refusal_or_empty_preview_ends_run (Install.test_ctx false None None)
                [Install.string_pattern "foo"] [] (or_intror Hin))
      as (Hout & Hhist & Hdl & _ & _ & Hlast).
    split; [exact Hout|]. split; [exact Hhist|]. split; [exact Hdl|].
    exact (Hlast Hin).
  - split; [left; exact Hin'|].
    destruct (refusal_or_empty_preview_ends_run (Install.test_ctx true None None)
                [] [] (or_introl Hin'))
      as (Hout & _ & Hdl & Hexec & _).
    split; [exact Hout|]. split; [exact Hdl|exact Hexec].
Defined.

(** A download that fails. *)
Lemma install_foo_download_fails :
  let r := Install.install_foo
             (Install.test_ctx true (Some Install.download_failed) None) in
  In Install.EvDownloadPackages (Install.events (final_state r))
  /\ outcome r = Raised Install.download_failed
  /\ Install.download_calls (Install.events (final_state r)) = 1
  /\ Install.history (final_state r) = []
  /\ ~ In Install.EvRunTransaction (Install.events (final_state r)).
Proof.
  unfold Install.install_foo, Install.install_nonexistent. cbv zeta.
  assert (Hin : In Install.EvDownloadPackages
                   (Install.events (final_state
                      (Install.run
                         (Install.test_ctx true (Some Install.download_failed) None)
                         [Install.string_pattern "foo"] (Install.start_state [])))))
    by in_list.
  split; [exact Hin|].
  destruct (download_failure_ends_run
              (Install.test_ctx true (Some Install.download_failed) None)
              [Install.string_pattern "foo"] [] Install.download_failed Hin eq_refl)
    as (Hout & Hcalls & _ & Hhist & _ & Hexec).
  repeat split; assumption.
Defined.

(** Scenario A: the run goes through; one record, started and finished. *)
Lemma install_foo_finishes_record :
  let r := Install.install_foo (Install.test_ctx true None None) in
  In (Install.EvNewDbTransaction 0) (Install.events (final_state r))
  /\ (1700000000000000000 <= 1700000002500000000)%Z
  /\ exists rec,
       Install.history (final_state r) !! 0 = Some rec
       /\ Install.finish_calls 0 (Install.events (final_state r)) = 1
       /\ (is_Some (Install.state rec) <-> is_Some (Install.dt_end rec))
       /\ forall s e : Z,
            Install.dt_start rec = Some s -> Install.dt_end rec = Some e -> (s <= e)%Z.
Proof.
  unfold Install.install_foo, Install.install_nonexistent. cbv zeta.
  assert (Hin : In (Install.EvNewDbTransaction 0)
                   (Install.events (final_state
                      (Install.run (Install.test_ctx true None None)
                         [Install.string_pattern "foo"] (Install.start_state [])))))
    by in_list.
  assert (Hclock : (1700000000000000000 <= 1700000002500000000)%Z) by lia.
  split; [exact Hin|]. split; [exact Hclock|].
  destruct (record_finish_is_consistent (Install.test_ctx true None None)
              [Install.string_pattern "foo"] [] 0 Hin)
    as (rec & Hrec & Hcalls & Hiff & Htimes).
  exists rec. split; [exact Hrec|]. split; [exact Hcalls|]. split; [exact Hiff|].
  exact (Htimes Hclock).
Defined.

(** C2 fails as stated: when the execution raises, the run has created a
    record whose finish state is never set. *)
Lemma failed_execution_never_finishes_record :
  let r := Install.install_foo
             (Install.test_ctx true None (Some Install.transaction_failed)) in
  In (Install.EvNewDbTransaction 0) (Install.events (final_state r))
  /\ Install.finish_calls 0 (Install.events (final_state r)) = 0.
Proof. split; [in_list|reflexivity]. Qed.

(** The run that goes through, seen from the execution. *)
Lemma install_foo_starts_record_first :
  let r := Install.install_foo (Install.test_ctx true None None) in
  In Install.EvRunTransaction (Install.events (final_state r))
  /\ exists before,
       ~ In Install.EvRunTransaction before
       /\ Install.events (final_state r)
          = before ++ [Install.EvSetDtStart 0 1700000000; Install.EvStart 0;
                       Install.EvRunTransaction;
                       Install.EvSetDtEnd 0 1700000002;
                       Install.EvFinish 0 Install.DONE]
       /\ Install.history (final_state r)
          = [Install.mkDbTransaction (Some 1700000000%Z) (Some 1700000002%Z) true
                                     (Some Install.DONE)].
Proof.
  unfold Install.install_foo, Install.install_nonexistent. cbv zeta.
  assert (Hin : In Install.EvRunTransaction
                   (Install.events (final_state
                      (Install.run (Install.test_ctx true None None)
                         [Install.string_pattern "foo"] (Install.start_state [])))))
    by in_list.
  split; [exact Hin|].
  destruct (record_started_before_execution (Install.test_ctx true None None)
              [Install.string_pattern "foo"] [] Hin)
    as (before & Hnot & _ & Hevs & Hhist & _).
  exists before. split; [exact Hnot|]. split; [exact Hevs|exact Hhist].
Defined.

(** C9 fails as stated: when the execution raises, the run has reached the
    execution, and afterwards no end time is set and no state: the record
    is left started and unfinished. *)
Lemma failed_execution_leaves_record_started :
  let r := Install.install_foo
             (Install.test_ctx true None (Some Install.transaction_failed)) in
  In Install.EvRunTransaction (Install.events (final_state r))
  /\ ~ In (Install.EvFinish 0 Install.DONE) (Install.events (final_state r))
  /\ outcome r = Raised Install.transaction_failed
  /\ Install.history (final_state r)
     = [Install.mkDbTransaction (Some 1700000000%Z) None true None].
Proof.
  split; [in_list|]. split; [|split; reflexivity].
  vm_compute. intros H.
  repeat (destruct H as [H|H]; [discriminate H|]). exact H.
Qed.

(** *** Further runs *)

(** A boolean option between two string options. *)
Lemma add_patterns_stops_at_bool_option :
  Install.is_option_string (Some (Install.AnOptionBool true)) = false
  /\ Install.add_patterns
       (map Install.string_pattern ["foo"]
          ++ Some (Install.AnOptionBool true) :: [Install.string_pattern "bar"])
       [] (Install.start_state [])
     = (Install.mkState [Install.EvAddRpmInstall "foo"] [] 0, Undefined).
Proof.
  split; [reflexivity|].
  destruct (add_patterns_stops_at_first_bad ["foo"] (Some (Install.AnOptionBool true))
              [Install.string_pattern "bar"] [] [] (Install.start_state []) eq_refl)
    as [H _].
  exact H.
Defined.

(** A repository load that fails. *)
Lemma install_foo_load_fails :
  Install.load_rpm_repos_result Install.failing_load_ctx = Some Install.load_failed
  /\ outcome (Install.run Install.failing_load_ctx [Install.string_pattern "foo"]
                (Install.start_state []))
     = Raised Install.load_failed
  /\ length (Install.events
               (final_state
                  (Install.run Install.failing_load_ctx [Install.string_pattern "foo"]
                     (Install.start_state [])))) = 2.
Proof.
  split; [reflexivity|].
  rewrite (load_failure_ends_run Install.failing_load_ctx
             [Install.string_pattern "foo"] [] Install.load_failed eq_refl).
  split; reflexivity.
Defined.

(** The run that goes through downloads once, after the confirmation. *)
Lemma install_foo_downloads_once :
  In Install.EvDownloadPackages
     (Install.events
        (final_state
           (Install.run (Install.test_ctx true None None)
              [Install.string_pattern "foo"] (Install.start_state []))))
  /\ Install.download_calls
       (Install.events
          (final_state
             (Install.run (Install.test_ctx true None None)
                [Install.string_pattern "foo"] (Install.start_state [])))) = 1.
Proof.
  assert (Hin : In Install.EvDownloadPackages
                   (Install.events (final_state
                      (Install.run (Install.test_ctx true None None)
                         [Install.string_pattern "foo"] (Install.start_state [])))))
    by in_list.
  split; [exact Hin|].
  destruct (download_needs_confirmation (Install.test_ctx true None None)
              [Install.string_pattern "foo"] [] Hin) as [Hcalls _].
  exact Hcalls.
Defined.

(** A run without patterns resolves the empty goal. *)
Lemma install_nothing_resolves_empty_goal :
  Install.load_rpm_repos_result (Install.test_ctx true None None) = None
  /\ outcome (Install.run (Install.test_ctx true None None) [] (Install.start_state []))
     <> Undefined.
Proof.
  split; [reflexivity|].
  destruct (run_without_patterns (Install.test_ctx true None None) [] eq_refl)
    as [_ H].
  exact H.
Defined.

(** The second reading, 2.5 seconds after the first, is recorded as the
    whole second it lies in. *)
Lemma install_foo_end_time_is_whole_second :
  ((In (Install.EvSetDtStart 0 1700000002)
       (Install.events
          (final_state
             (Install.run (Install.test_ctx true None None)
                [Install.string_pattern "foo"] (Install.start_state []))))
    /\ 1700000002500000000%Z
       = Install.system_clock_now (Install.test_ctx true None None) 0)
   \/ (In (Install.EvSetDtEnd 0 1700000002)
          (Install.events
             (final_state
                (Install.run (Install.test_ctx true None None)
                   [Install.string_pattern "foo"] (Install.start_state []))))
       /\ 1700000002500000000%Z
          = Install.system_clock_now (Install.test_ctx true None None) 1))
  /\ (1700000002 * 1000000000 <= 1700000002500000000
      < (1700000002 + 1) * 1000000000)%Z.
Proof.
  assert (Hin : In (Install.EvSetDtEnd 0 1700000002)
                   (Install.events (final_state
                      (Install.run (Install.test_ctx true None None)
                         [Install.string_pattern "foo"] (Install.start_state [])))))
    by in_list.
  assert (Hreading : 1700000002500000000%Z
                     = Install.system_clock_now (Install.test_ctx true None None) 1)
    by reflexivity.
  split; [right; split; [exact Hin|exact Hreading]|].
  destruct (recorded_times_are_whole_seconds (Install.test_ctx true None None)
              [Install.string_pattern "foo"] [] 0 1700000002 1700000002500000000
              (or_intror (conj Hin Hreading))) as [Hpos _].
  apply Hpos. lia.
Defined.
